(** * NutritionAnalyzer: the data preparation and query layer of [app.py]

    A shallow embedding of the dataframe operations that [app.py] runs on
    the menu-item table, and the properties of the loader and of the
    queries that the dashboard callbacks compute.

    Conventions of the embedding.
    - A dataframe is its list of column labels and its list of rows; a row
      is a finite map from column label to cell.  The row index of pandas
      is not modelled: no operation of [app.py] reads it.
    - A cell is a missing value ([NaN]), a number or a text.  Numbers are
      exact rationals in canonical form ([Qc]), so that two cells are
      equal exactly when pandas finds the values equal; the rounding error
      of binary floating point is outside the model.
    - An operation that raises in Python returns [Raise e]; a callback that
      falls off its last [if] returns [Ok None] (Python's implicit [None]).
    - The callbacks hand a dataframe to the charting library; the embedding
      returns that dataframe and stops there. *)

From Stdlib Require Import QArith Qcanon Qround Ascii Lqa.
From Stdlib Require Import Structures.OrderedTypeEx.
From stdpp Require Import gmap strings list fin_maps numbers sorting.

#[local] Set Warnings "-clear-no-such-hyp".

Open Scope string_scope.

(* ================================================================== *)
(** * Part I: definitions *)
(* ================================================================== *)

(** ** Cells, rows, frames *)

Inductive cell : Type :=
  | NaN
  | Num (q : Qc)
  | Str (s : string).

#[global] Instance cell_eq_dec : EqDecision cell.
Proof. solve_decision. Defined.

#[global] Instance cell_inhabited : Inhabited cell := populate NaN.

Abbreviation row := (gmap string cell).

Record DataFrame : Type := mkDataFrame {
  columns : list string;
  rows : list row
}.

(** The cell of row [r] under label [c]; a row without the label reads as
    a missing value. *)
Definition get (r : row) (c : string) : cell := default NaN (r !! c).

(** [pd.notnull] *)
Definition notnull (c : cell) : bool :=
  match c with NaN => false | _ => true end.

(** ** Exceptions *)

Inductive exn : Type :=
  | KeyError (label : string)
  | IndexError
  | TypeError.

Inductive result (A : Type) : Type :=
  | Ok (a : A)
  | Raise (e : exn).
Arguments Ok {A} a.
Arguments Raise {A} e.

#[global] Instance result_ret : MRet result := λ A a, Ok a.
#[global] Instance result_bind : MBind result := λ A B f m,
  match m with Ok a => f a | Raise e => Raise e end.

(** Every label of [labels] must be a column of [df]; pandas raises
    [KeyError] on the first one that is not. *)
Definition require_columns (labels : list string) (df : DataFrame)
  : result unit :=
  match filter (λ c, c ∉ columns df) labels with
  | [] => Ok ()
  | c :: _ => Raise (KeyError c)
  end.

(** ** The pandas operations the loader uses *)

(** [df.dropna(subset=labels)] *)
Definition dropna (labels : list string) (df : DataFrame)
  : result DataFrame :=
  _ ← require_columns labels df;
  Ok {| columns := columns df;
        rows := filter (λ r, Forall (λ c, get r c ≠ NaN) labels) (rows df) |}.

Definition drop_row (labels : list string) (r : row) : row :=
  foldr delete r labels.

(** [df.drop(columns=labels)], with the default [errors='raise'] *)
Definition drop (labels : list string) (df : DataFrame) : result DataFrame :=
  _ ← require_columns labels df;
  Ok {| columns := filter (λ c, c ∉ labels) (columns df);
        rows := drop_row labels <$> rows df |}.

(** [df[c] = f(row)]: an existing column is overwritten, a new one is
    appended. *)
Definition setitem (c : string) (f : row → cell) (df : DataFrame)
  : DataFrame :=
  {| columns := if decide (c ∈ columns df) then columns df
                else columns df ++ [c];
     rows := (λ r, <[c := f r]> r) <$> rows df |}.

Definition fillna_cell (v c : cell) : cell :=
  match c with NaN => v | _ => c end.

(** [df[c] = df[c].fillna(v)] *)
Definition fillna_column (c : string) (v : cell) (df : DataFrame)
  : result DataFrame :=
  _ ← require_columns [c] df;
  Ok (setitem c (λ r, fillna_cell v (get r c)) df).

(** [DataFrame.drop_duplicates()], default [keep='first']: a row stays
    when no earlier row equals it on every column. *)
Fixpoint keep_first {A} `{EqDecision A} (l : list A) : list A :=
  match l with
  | [] => []
  | r :: l' => r :: filter (λ r', r' ≠ r) (keep_first l')
  end.

Definition drop_duplicates (df : DataFrame) : DataFrame :=
  {| columns := columns df; rows := keep_first (rows df) |}.

(** [pd.to_numeric(_, errors='coerce')] on one cell.  [parse] is the
    numeric-literal reader of pandas applied to a text cell; it answers
    [None] when the text is not a number. *)
Definition to_numeric (parse : string → option Qc) (c : cell) : cell :=
  match c with
  | Str s => match parse s with Some q => Num q | None => NaN end
  | _ => c
  end.

Definition to_numeric_row (parse : string → option Qc)
    (labels : list string) (r : row) : row :=
  foldr (λ c acc, <[c := to_numeric parse (get r c)]> acc) r labels.

(** [df[labels] = df[labels].apply(pd.to_numeric, errors='coerce')] *)
Definition apply_to_numeric (parse : string → option Qc)
    (labels : list string) (df : DataFrame) : result DataFrame :=
  _ ← require_columns labels df;
  Ok {| columns := columns df;
        rows := to_numeric_row parse labels <$> rows df |}.

Fixpoint string_repeat (s : string) (k : nat) : string :=
  match k with O => "" | S k' => s ++ string_repeat s k' end.

(** [cell * k] for an integer literal [k]: a missing value stays missing;
    Python repeats a text. *)
Definition cell_mul (c : cell) (k : nat) : cell :=
  match c with
  | NaN => NaN
  | Num q => Num (q * Qc_of_Z (Z.of_nat k))
  | Str s => Str (string_repeat s k)
  end.

(** [df[dst] = df[src] * k] *)
Definition assign_product (dst src : string) (k : nat) (df : DataFrame)
  : result DataFrame :=
  _ ← require_columns [src] df;
  Ok (setitem dst (λ r, cell_mul (get r src) k) df).

(** ** [load_and_clean_data] *)

Definition columns_to_drop : list string :=
  [ "matched_2021"; "new_item_2022"; "serving_size_text";
    "serving_size_household"; "potassium"; "notes"; "calories_text";
    "total_fat_text"; "saturated_fat_text"; "trans_fat_text";
    "cholesterol_text"; "sodium_text"; "carbohydrates_text";
    "dietary_fiber_text"; "sugar_text"; "protein_text" ].

Definition nutrition_columns : list string :=
  [ "calories_(kCal)"; "total_fat_(g)"; "saturated_fat_(g)";
    "trans_fat_(g)"; "cholesterol_(mg/dL)"; "sodium_(mg)";
    "carbohydrates_(g)"; "dietary_fiber_(g)"; "sugar_(g)"; "protein_(g)" ].

(** The argument [csv] is the frame [pd.read_csv(filename)] returns. *)
Definition load_and_clean_data (parse : string → option Qc)
    (csv : DataFrame) : result (DataFrame * list string) :=
  df ← dropna ["serving_size"] csv;
  df ← drop columns_to_drop df;
  df ← fillna_column "serving_size_unit" (Str "Unit") df;
  let df := drop_duplicates df in
  df ← apply_to_numeric parse nutrition_columns df;
  df ← assign_product "carb_calories" "carbohydrates_(g)" 4 df;
  df ← assign_product "fat_calories" "total_fat_(g)" 9 df;
  df ← assign_product "protein_calories" "protein_(g)" 4 df;
  Ok (df, nutrition_columns).

(** The row-level view of the loader: what happens to one raw row before
    and after the duplicate removal. *)
Definition before_dedup (r : row) : row :=
  let r := drop_row columns_to_drop r in
  <["serving_size_unit" :=
      fillna_cell (Str "Unit") (get r "serving_size_unit")]> r.

Definition after_dedup (parse : string → option Qc) (r : row) : row :=
  let r := to_numeric_row parse nutrition_columns r in
  let r := <["carb_calories" := cell_mul (get r "carbohydrates_(g)") 4]> r in
  let r := <["fat_calories" := cell_mul (get r "total_fat_(g)") 9]> r in
  <["protein_calories" := cell_mul (get r "protein_(g)") 4]> r.

(** ** The query layer: selections

    Every callback reads the module-level frame [df]; the embedding passes
    it as an argument. *)

(** [df[df[c] == v]] for a text [v]: an empty or numeric cell never
    equals a text. *)
Definition select_eq (c v : string) (df : DataFrame) : result DataFrame :=
  _ ← require_columns [c] df;
  Ok {| columns := columns df;
        rows := filter (λ r, get r c = Str v) (rows df) |}.

(** [df[df[c].isin(values)]] *)
Definition select_isin (c : string) (values : list string) (df : DataFrame)
  : result DataFrame :=
  _ ← require_columns [c] df;
  Ok {| columns := columns df;
        rows := filter (λ r, get r c ∈ Str <$> values) (rows df) |}.

(** [df.iloc[0]] *)
Definition iloc0 (df : DataFrame) : result row :=
  match rows df with
  | r :: _ => Ok r
  | [] => Raise IndexError
  end.

(** [item_data[c]] on a row taken from [df] *)
Definition row_getitem (df : DataFrame) (r : row) (c : string) : result cell :=
  _ ← require_columns [c] df;
  Ok (get r c).

(** Python truthiness of a dropdown value: [None] and the empty text are
    false. *)
Definition selected (value : option string) : option string :=
  match value with
  | Some (String a s) => Some (String a s)
  | _ => None
  end.

(** ** [display_item_info]

    The components the callback puts on the page, before formatting. *)
Record ItemInfo : Type := mkItemInfo {
  info_title : string;
  info_restaurant : cell;
  info_food_category : cell;
  info_description : cell;
  info_serving_size : cell * cell;
  info_pie_values : list cell;
  info_nutrition : list (string * cell)
}.

Definition display_item_info (df : DataFrame) (selected_item : option string)
  : result (option ItemInfo) :=
  match selected selected_item with
  | Some name =>
      matching ← select_eq "item_name" name df;
      item_data ← iloc0 matching;
      restaurant ← row_getitem df item_data "restaurant";
      category ← row_getitem df item_data "food_category";
      description ← row_getitem df item_data "item_description";
      let description :=
        if notnull description then description
        else Str "No description available." in
      size ← row_getitem df item_data "serving_size";
      unit ← row_getitem df item_data "serving_size_unit";
      carb ← row_getitem df item_data "carb_calories";
      fat ← row_getitem df item_data "fat_calories";
      protein ← row_getitem df item_data "protein_calories";
      _ ← require_columns nutrition_columns df;
      let nutrition_info := (λ n, (n, get item_data n)) <$> nutrition_columns in
      Ok (Some {| info_title := name;
                  info_restaurant := restaurant;
                  info_food_category := category;
                  info_description := description;
                  info_serving_size := (size, unit);
                  info_pie_values := [carb; fat; protein];
                  info_nutrition :=
                    filter (λ nv, nv.2 ≠ NaN) nutrition_info |})
  | None => Ok None
  end.

(** The record of one row, as the page shows it. *)
Definition item_record (name : string) (r : row) : ItemInfo :=
  {| info_title := name;
     info_restaurant := get r "restaurant";
     info_food_category := get r "food_category";
     info_description :=
       match get r "item_description" with
       | NaN => Str "No description available."
       | d => d
       end;
     info_serving_size := (get r "serving_size", get r "serving_size_unit");
     info_pie_values :=
       [get r "carb_calories"; get r "fat_calories"; get r "protein_calories"];
     info_nutrition :=
       filter (λ nv, nv.2 ≠ NaN) ((λ n, (n, get r n)) <$> nutrition_columns) |}.

(** The columns [display_item_info] reads. *)
Definition item_columns : list string :=
  [ "item_name"; "restaurant"; "food_category"; "item_description";
    "serving_size"; "serving_size_unit";
    "carb_calories"; "fat_calories"; "protein_calories" ]
  ++ nutrition_columns.

(** ** [update_compare_output] *)

Definition melt_row (id_var var_name value_name : string) (r : row)
    (v : string) : row :=
  <[id_var := get r id_var]>
    (<[var_name := Str v]> (<[value_name := get r v]> ∅)).

(** [df.melt(id_vars=[id_var], value_vars=value_vars, var_name=...,
    value_name=...)]: one block of rows per value column, in the order of
    [value_vars], each block in the row order of [df].  Nothing is
    dropped. *)
Definition melt (id_var : string) (value_vars : list string)
    (var_name value_name : string) (df : DataFrame) : result DataFrame :=
  _ ← require_columns (id_var :: value_vars) df;
  Ok {| columns := [id_var; var_name; value_name];
        rows := v ← value_vars;
                (λ r, melt_row id_var var_name value_name r v) <$> rows df |}.


(** ** Ordering and sorting

    The order pandas sorts the cells of a column in: numbers by value,
    texts by code point, numbers before texts, missing values last. *)
Definition cell_leb (a b : cell) : bool :=
  match a, b with
  | Num x, Num y => bool_decide (x ≤ y)%Qc
  | Num _, _ => true
  | Str _, Num _ => false
  | Str s, Str t => String.leb s t
  | Str _, NaN => true
  | NaN, NaN => true
  | NaN, _ => false
  end.

(** A sorting algorithm, as a function of the comparison and the list. *)
Definition sort_kind : Type := (row → row → bool) → list row → list row.


Fixpoint insert_by {A} (le : A → A → bool) (x : A) (l : list A) : list A :=
  match l with
  | [] => [x]
  | y :: l' => if le x y then x :: l else y :: insert_by le x l'
  end.

(** Insertion sort: among equal keys, the earlier row stays first. *)
Definition stable_sort {A} (le : A → A → bool) (l : list A) : list A :=
  foldr (insert_by le) [] l.


(** [df[labels]] *)
Definition project (labels : list string) (r : row) : row :=
  foldr (λ c acc, <[c := get r c]> acc) ∅ labels.

Definition getitem_columns (labels : list string) (df : DataFrame)
  : result DataFrame :=
  _ ← require_columns labels df;
  Ok {| columns := labels; rows := project labels <$> rows df |}.

Definition row_leb (by_ : string) (ascending : bool) (r1 r2 : row) : bool :=
  if ascending then cell_leb (get r1 by_) (get r2 by_)
  else cell_leb (get r2 by_) (get r1 by_).

(** [df.sort_values(by=by_, ascending=ascending)], with the default
    [na_position='last']: the rows with a key are sorted, the rows without
    follow. *)
Definition sort_values (kind : sort_kind) (by_ : string) (ascending : bool)
    (df : DataFrame) : result DataFrame :=
  _ ← require_columns [by_] df;
  Ok {| columns := columns df;
        rows := kind (row_leb by_ ascending)
                     (filter (λ r, get r by_ ≠ NaN) (rows df))
                ++ filter (λ r, get r by_ = NaN) (rows df) |}.

(** [df.head(n)]: the first [n] rows; all but the last [-n] for a negative
    [n]. *)
Definition head (n : Z) (df : DataFrame) : DataFrame :=
  {| columns := columns df;
     rows := if (0 <=? n)%Z then take (Z.to_nat n) (rows df)
             else take (length (rows df) - Z.to_nat (- n)) (rows df) |}.

(** Python truthiness of the number input: [None] and [0] are false. *)
Definition entered (n : option Z) : option Z :=
  match n with
  | Some 0%Z => None
  | _ => n
  end.

(** ** [update_top_n_output]

    The frame handed to [px.bar]. *)
Definition update_top_n_output (kind : sort_kind) (df : DataFrame)
    (selected_nutrient : option string) (n : option Z) (order : string)
  : result (option DataFrame) :=
  match selected selected_nutrient, entered n with
  | Some nutrient, Some n =>
      sorted_df ← getitem_columns ["item_name"; "restaurant"; nutrient] df;
      sorted_df ← dropna [nutrient] sorted_df;
      sorted_df ← sort_values kind nutrient (String.eqb order "asc") sorted_df;
      let top_n_df := head n sorted_df in
      Ok (Some top_n_df)
  | _, _ => Ok None
  end.

(** The rows [update_top_n_output] ranks: the three columns it keeps, of
    the rows with a known value. *)
Definition known_rows (df : DataFrame) (nutrient : string) : list row :=
  filter (λ r, get r nutrient ≠ NaN)
         (project ["item_name"; "restaurant"; nutrient] <$> rows df).

(** [topN] in the words of the specification: exclude the rows with an
    unknown value, sort stably, keep the first [n]. *)
Definition topN (df : DataFrame) (nutrient : string) (n : nat)
    (ascending : bool) : list row :=
  take n (stable_sort (row_leb nutrient ascending) (known_rows df nutrient)).

(** ** Grouping and averaging *)

(** The keys of [df.groupby(by_)]: the distinct values of the column, the
    missing value left out (the default [dropna=True]), in sorted order
    (the default [sort=True]). *)
Definition group_keys (by_ : string) (df : DataFrame) : list cell :=
  stable_sort cell_leb
    (keep_first (filter (λ k, k ≠ NaN) ((λ r, get r by_) <$> rows df))).

Definition group_rows (by_ : string) (key : cell) (df : DataFrame)
  : list row :=
  filter (λ r, get r by_ = key) (rows df).

(** The known values among the cells of a numeric column: the aggregates
    of pandas skip the missing ones ([skipna=True]). *)
Definition known_values (cells : list cell) : list Qc :=
  omap (λ c, match c with Num q => Some q | _ => None end) cells.

Definition column_values (c : string) (l : list row) : list Qc :=
  known_values ((λ r, get r c) <$> l).

Definition is_text (c : cell) : bool :=
  match c with Str _ => true | _ => false end.

(** A column that holds a text has dtype [object]; a numeric aggregate of
    it raises [TypeError]. *)
Definition require_numeric (labels : list string) (df : DataFrame)
  : result unit :=
  if existsb (λ r, existsb (λ c, is_text (get r c)) labels) (rows df)
  then Raise TypeError else Ok ().

Definition Qc_sum (xs : list Qc) : Qc := foldr Qcplus (Qc_of_Z 0) xs.

(** [mean] of the known values; of no value it is [NaN]. *)
Definition mean (xs : list Qc) : cell :=
  match xs with
  | [] => NaN
  | _ => Num (Qc_sum xs / Qc_of_Z (Z.of_nat (length xs)))
  end.

Definition mean_row (by_ : string) (labels : list string) (df : DataFrame)
    (key : cell) : row :=
  <[by_ := key]>
    (foldr (λ c acc, <[c := mean (column_values c (group_rows by_ key df))]> acc)
           ∅ labels).

(** [df.groupby(by_)[labels].mean().reset_index()] *)
Definition groupby_mean (by_ : string) (labels : list string)
    (df : DataFrame) : result DataFrame :=
  _ ← require_columns (by_ :: labels) df;
  _ ← require_numeric labels df;
  Ok {| columns := by_ :: labels;
        rows := mean_row by_ labels df <$> group_keys by_ df |}.

(** ** [update_restaurant_averages_output] *)
Definition update_restaurant_averages_output (df : DataFrame)
    (selected_restaurants selected_nutrients : list string)
  : result (option DataFrame) :=
  match selected_restaurants, selected_nutrients with
  | _ :: _, _ :: _ =>
      filtered_df ← select_isin "restaurant" selected_restaurants df;
      avg_df ← groupby_mean "restaurant" selected_nutrients filtered_df;
      melted_df ← melt "restaurant" selected_nutrients "Nutrient"
                       "Average Amount" avg_df;
      Ok (Some melted_df)
  | _, _ => Ok None
  end.

(** ** [update_category_comparison_output] *)
Definition update_category_comparison_output (df : DataFrame)
    (selected_nutrient : option string) (selected_categories : list string)
  : result (option DataFrame) :=
  match selected selected_nutrient, selected_categories with
  | Some nutrient, _ :: _ =>
      filtered_df ← select_isin "food_category" selected_categories df;
      avg_df ← groupby_mean "food_category" [nutrient] filtered_df;
      Ok (Some avg_df)
  | _, _ => Ok None
  end.



(** ** Statistics of a group *)

Definition Qc_leb (x y : Qc) : bool := bool_decide (x ≤ y)%Qc.
Definition Qc_min (x y : Qc) : Qc := if decide (x ≤ y)%Qc then x else y.
Definition Qc_max (x y : Qc) : Qc := if decide (x ≤ y)%Qc then y else x.

(** [median]: the middle of the sorted values, the mean of the two middle
    ones when their number is even. *)
Definition median (xs : list Qc) : cell :=
  let s := stable_sort Qc_leb xs in
  let n := length s in
  match n with
  | O => NaN
  | _ =>
      if Nat.odd n then Num (default (Qc_of_Z 0) (s !! (n / 2)))
      else Num ((default (Qc_of_Z 0) (s !! (n / 2 - 1))
                 + default (Qc_of_Z 0) (s !! (n / 2))) / Qc_of_Z 2)
  end.

Definition minimum (xs : list Qc) : cell :=
  match xs with
  | [] => NaN
  | x :: xs' => Num (foldr Qc_min x xs')
  end.

Definition maximum (xs : list Qc) : cell :=
  match xs with
  | [] => NaN
  | x :: xs' => Num (foldr Qc_max x xs')
  end.

Definition squared_deviations (xs : list Qc) (m : Qc) : Qc :=
  Qc_sum ((λ x : Qc, ((x - m) * (x - m))%Qc) <$> xs).

(** The variance with [ddof=1], the default of [std]: the squared
    deviations from the mean summed and divided by [n - 1]; there is none
    of fewer than two values. *)
Definition sample_variance (xs : list Qc) : option Qc :=
  let n := length xs in
  if (n <=? 1)%nat then None
  else
    let m := (Qc_sum xs / Qc_of_Z (Z.of_nat n))%Qc in
    Some (squared_deviations xs m / Qc_of_Z (Z.of_nat n - 1))%Qc.

(** One row of the aggregate, before rounding.  The standard deviation is
    the square root of a rational and in general no rational itself:
    [s_std = Some v] stands for the real number [√v], [None] for NaN. *)
Record summary : Type := mkSummary {
  s_key : cell;
  s_mean : cell;
  s_median : cell;
  s_std : option Qc;
  s_min : cell;
  s_max : cell
}.

Definition summarize (by_ nutrient : string) (df : DataFrame) (key : cell)
  : summary :=
  let xs := column_values nutrient (group_rows by_ key df) in
  {| s_key := key;
     s_mean := mean xs;
     s_median := median xs;
     s_std := sample_variance xs;
     s_min := minimum xs;
     s_max := maximum xs |}.

(** [df.groupby(by_)[nutrient].agg(['mean', 'median', 'std', 'min',
    'max']).reset_index()] *)
Definition groupby_agg (by_ nutrient : string) (df : DataFrame)
  : result (list summary) :=
  _ ← require_columns [by_; nutrient] df;
  _ ← require_numeric [nutrient] df;
  Ok (summarize by_ nutrient df <$> group_keys by_ df).

(** ** Rounding to two decimals

    [numpy] rounds to the nearest multiple of 1/100 and a tie to the even
    one. *)
Definition round_half_even (x : Q) : Z :=
  let f := Qfloor x in
  match Qcompare (x - inject_Z f) (1 # 2) with
  | Lt => f
  | Gt => (f + 1)%Z
  | Eq => if Z.even f then f else (f + 1)%Z
  end.

Definition round2 (q : Qc) : Qc :=
  Q2Qc (inject_Z (round_half_even (q * inject_Z 100)) / inject_Z 100).

(** The number of hundredths nearest to [√v], for [0 ≤ v], computed in
    integers: with [m] the integer square root of [40000 v], [√v] lies in
    [[m/200, (m+1)/200)]. *)
Definition root_hundredths (v : Qc) : Z :=
  let x := (inject_Z 40000 * v)%Q in
  let m := Z.sqrt (Qfloor x) in
  if Z.even m then (m / 2)%Z
  else if Qeq_bool (inject_Z (m * m)) x
       then (if Z.even (m / 2) then m / 2 else m / 2 + 1)%Z
       else ((m + 1) / 2)%Z.

Definition round2_root (v : Qc) : Qc :=
  Q2Qc (inject_Z (root_hundredths v) / inject_Z 100).

Definition round_cell (c : cell) : cell :=
  match c with Num q => Num (round2 q) | _ => c end.

Definition round_root (v : option Qc) : cell :=
  match v with Some v => Num (round2_root v) | None => NaN end.

(** One row of [summary_df.round(2)]: every numeric column is rounded. *)
Definition round_summary (by_ : string) (s : summary) : row :=
  <[by_ := round_cell (s_key s)]>
    (<["mean" := round_cell (s_mean s)]>
    (<["median" := round_cell (s_median s)]>
    (<["std" := round_root (s_std s)]>
    (<["min" := round_cell (s_min s)]>
    (<["max" := round_cell (s_max s)]> ∅))))).

(** ** [update_statistical_summary_output]

    The frame of the table; [None] is the page that asks for a
    selection. *)
Definition update_statistical_summary_output (df : DataFrame)
    (selected_nutrient group_by : option string)
  : result (option DataFrame) :=
  match selected selected_nutrient, selected group_by with
  | Some nutrient, Some by_ =>
      summary_df ← groupby_agg by_ nutrient df;
      let summary_df :=
        {| columns := [by_; "mean"; "median"; "std"; "min"; "max"];
           rows := round_summary by_ <$> summary_df |} in
      Ok (Some summary_df)
  | _, _ => Ok None
  end.

(** ** What the statistics are *)









(** ** Python's [sorted] on the values of a column

    [list.sort] compares with [<].  A text and a float are not comparable:
    a list that holds both makes [sorted] raise [TypeError].  Texts compare
    by code point and numbers by value; every comparison with a NaN is
    false, so of a list with a NaN the order is the algorithm's.  The
    algorithm is a parameter, as for [sort_values]. *)

Definition list_sort_kind : Type :=
  (cell → cell → bool) → list cell → list cell.

(** What is known of [list.sort]: the result is a rearrangement of the
    list, in order when the comparison is a total order on the elements. *)
Definition sorts_cells (kind : list_sort_kind) : Prop :=
  ∀ (le : cell → cell → bool) (l : list cell),
    kind le l ≡ₚ l ∧
    ((∀ x y, x ∈ l → y ∈ l → le x y ∨ le y x) →
     (∀ x y z, x ∈ l → y ∈ l → z ∈ l → le x y → le y z → le x z) →
     StronglySorted le (kind le l)).

(** [not (b < a)] in Python, for two texts or two floats. *)
Definition py_leb (a b : cell) : bool :=
  match a, b with
  | Str s, Str t => String.leb s t
  | Num x, Num y => bool_decide (x ≤ y)%Qc
  | _, _ => true
  end.

Definition py_sorted (kind : list_sort_kind) (l : list cell)
  : result (list cell) :=
  if existsb is_text l && existsb (λ c, negb (is_text c)) l
  then Raise TypeError
  else Ok (kind py_leb l).

(** [df[c]] as the list of its cells *)
Definition column_cells (c : string) (df : DataFrame) : list cell :=
  (λ r, get r c) <$> rows df.

(** [sorted(df[c].unique())]; [unique] keeps the first occurrence of every
    value, the missing value included. *)
Definition sorted_unique (kind : list_sort_kind) (c : string)
    (df : DataFrame) : result (list cell) :=
  _ ← require_columns [c] df;
  py_sorted kind (keep_first (column_cells c df)).

(** ** The dropdowns of the explore page

    A dropdown's options are modelled by their values (label and value
    are the same). *)

(** [update_category_dropdown] *)
Definition update_category_dropdown (kind : list_sort_kind) (df : DataFrame)
    (selected_restaurant selected_item : option string)
  : result (list cell) :=
  match selected selected_item, selected selected_restaurant with
  | Some item, None =>
      matching ← select_eq "item_name" item df;
      item_row ← iloc0 matching;
      category ← row_getitem df item_row "food_category";
      Ok [category]
  | _, Some restaurant =>
      filtered_df ← select_eq "restaurant" restaurant df;
      sorted_unique kind "food_category" filtered_df
  | None, None =>
      sorted_unique kind "food_category" df
  end.

(** [df[(df['restaurant'] == r) & (df['food_category'] == c)]] *)
Definition select_restaurant_category (r c : string) (df : DataFrame)
  : result DataFrame :=
  _ ← require_columns ["restaurant"] df;
  _ ← require_columns ["food_category"] df;
  Ok {| columns := columns df;
        rows := filter (λ row, get row "restaurant" = Str r
                               ∧ get row "food_category" = Str c)
                       (rows df) |}.

(** [update_item_dropdown] *)
Definition update_item_dropdown (kind : list_sort_kind) (df : DataFrame)
    (selected_restaurant selected_category : option string)
  : result (list cell) :=
  filtered_df ←
    match selected selected_restaurant, selected selected_category with
    | Some r, Some c => select_restaurant_category r c df
    | Some r, None => select_eq "restaurant" r df
    | None, Some c => select_eq "food_category" c df
    | None, None => Ok df
    end;
  sorted_unique kind "item_name" filtered_df.

(** [autofill_restaurant_category]: the values of the restaurant and the
    category dropdown; [None] is an empty dropdown. *)
Definition autofill_restaurant_category (df : DataFrame)
    (selected_item current_restaurant current_category : option string)
  : result (option cell * option cell) :=
  match selected selected_item with
  | Some item =>
      item_row ← select_eq "item_name" item df;
      retained ←
        match current_restaurant with
        | None => Ok None
        | Some current =>
            _ ← require_columns ["restaurant"] item_row;
            if decide (Str current ∈ column_cells "restaurant" item_row)
            then Ok (Some (Str current)) else Ok None
        end;
      restaurant ←
        match retained with
        | Some current => Ok current
        | None =>
            first ← iloc0 item_row;
            row_getitem item_row first "restaurant"
        end;
      first ← iloc0 item_row;
      category ← row_getitem item_row first "food_category";
      Ok (Some restaurant, Some category)
  | None => Ok (Str <$> current_restaurant, Str <$> current_category)
  end.

(** The options of the item dropdown of [compare_layout]. *)
Definition compare_layout_items (kind : list_sort_kind) (df : DataFrame)
  : result (list cell) :=
  sorted_unique kind "item_name" df.

(** The rows a selection of the explore page stands for: no selection of
    a dropdown is no restriction. *)
Definition in_selection (restaurant category : option string) (r : row)
  : Prop :=
  (∀ s, selected restaurant = Some s → get r "restaurant" = Str s)
  ∧ (∀ s, selected category = Some s → get r "food_category" = Str s).

(** The columns [load_and_clean_data] needs in the file. *)
Definition required_columns : list string :=
  "serving_size" :: columns_to_drop
  ++ "serving_size_unit" :: nutrition_columns.

(** The columns the loader adds or rewrites. *)
Definition rewritten_columns : list string :=
  [ "serving_size_unit"; "carb_calories"; "fat_calories";
    "protein_calories" ] ++ nutrition_columns.

(** ** A reader of plain decimal literals

    Used to run the loader on concrete tables: an optional sign, digits,
    and an optional fraction. *)

Definition digit_of (a : ascii) : option N :=
  let n := N_of_ascii a in
  if ((48 <=? n) && (n <=? 57))%N then Some (n - 48)%N else None.

Fixpoint digits_value (s : string) (acc : N) : option N :=
  match s with
  | EmptyString => Some acc
  | String a s' =>
      match digit_of a with
      | Some d => digits_value s' (acc * 10 + d)%N
      | None => None
      end
  end.

Fixpoint split_dot (s : string) : string * option string :=
  match s with
  | EmptyString => (EmptyString, None)
  | String a s' =>
      if Ascii.eqb a "."%char then (EmptyString, Some s')
      else let '(i, f) := split_dot s' in (String a i, f)
  end.

Definition unsigned_literal (s : string) : option Qc :=
  let '(i, f) := split_dot s in
  let f := default EmptyString f in
  if String.eqb (i ++ f) EmptyString then None
  else match digits_value (i ++ f) 0 with
       | Some n => Some (Q2Qc (Z.of_N n # Pos.of_nat (10 ^ String.length f)))
       | None => None
       end.

Definition decimal_literal (s : string) : option Qc :=
  match s with
  | String "-"%char s' => Qcopp <$> unsigned_literal s'
  | String "+"%char s' => unsigned_literal s'
  | _ => unsigned_literal s
  end.

(** ** Example tables *)

Definition raw_columns : list string :=
  [ "restaurant"; "item_name"; "food_category"; "item_description";
    "serving_size"; "serving_size_unit" ]
  ++ nutrition_columns ++ columns_to_drop.

(** A raw row with the given identity cells, serving size and unit, and
    calories, fat, carbohydrates and protein; every other cell is empty. *)
Definition raw_row (restaurant item category : string)
    (size unit calories fat carbs protein : cell) : row :=
  <["restaurant" := Str restaurant]>
  (<["item_name" := Str item]>
  (<["food_category" := Str category]>
  (<["serving_size" := size]>
  (<["serving_size_unit" := unit]>
  (<["calories_(kCal)" := calories]>
  (<["total_fat_(g)" := fat]>
  (<["carbohydrates_(g)" := carbs]>
  (<["protein_(g)" := protein]> ∅)))))))).

Definition num (z : Z) : cell := Num (Qc_of_Z z).

Definition raw_burger : row :=
  raw_row "Alpha" "Burger" "Burgers" (num 200) (Str "g")
          (num 500) (num 20) (num 40) (num 25).
Definition raw_salad : row :=
  raw_row "Alpha" "Salad" "Salads" (num 150) NaN
          NaN (num 5) (Str "trace") (num 3).
Definition raw_wrap : row :=
  raw_row "Beta" "Wrap" "Sandwiches" NaN (Str "g")
          (num 300) (num 10) (num 30) (num 12).
Definition raw_fries : row :=
  raw_row "Beta" "Fries" "Sides" (num 100) (Str "g")
          (num 500) (num 15) (num 45) (num 4).

Definition csv_menu : DataFrame :=
  {| columns := raw_columns;
     rows := [ raw_burger; raw_salad; raw_wrap; raw_fries ] |}.

(** Two raw rows that differ in the text of their calorie cell only. *)
Definition raw_soda (calories : string) : row :=
  raw_row "Alpha" "Soda" "Beverages" (num 355) (Str "ml")
          (Str calories) (num 0) (num 39) (num 0).

Definition csv_soda : DataFrame :=
  {| columns := raw_columns;
     rows := [ raw_soda "<5"; raw_soda "trace" ] |}.

(** The loaded example table ([Wrap] has no serving size and is dropped). *)
Definition loaded_menu : DataFrame :=
  match load_and_clean_data decimal_literal csv_menu with
  | Ok (df, _) => df
  | Raise _ => {| columns := []; rows := [] |}
  end.

Definition menu_burger : row :=
  after_dedup decimal_literal (before_dedup raw_burger).
Definition menu_salad : row :=
  after_dedup decimal_literal (before_dedup raw_salad).
Definition menu_fries : row :=
  after_dedup decimal_literal (before_dedup raw_fries).

(** Two restaurants: three known sodium values at [A], none at [B]. *)
Definition raw_sodium (restaurant item : string) (sodium : cell) : row :=
  <["sodium_(mg)" := sodium]>
    (raw_row restaurant item "Sides" (num 100) (Str "g") NaN NaN NaN NaN).

Definition csv_sodium : DataFrame :=
  {| columns := raw_columns;
     rows := [ raw_sodium "A" "Soup" (num 100);
               raw_sodium "B" "Water" NaN;
               raw_sodium "A" "Chips" (num 200);
               raw_sodium "A" "Pickle" (num 400);
               raw_sodium "B" "Tea" (Str "n.d.") ] |}.

Definition loaded_sodium : DataFrame :=
  match load_and_clean_data decimal_literal csv_sodium with
  | Ok (df, _) => df
  | Raise _ => {| columns := []; rows := [] |}
  end.

(** ** Derived fields *)


(* ================================================================== *)
(** * Part II: properties *)
(* ================================================================== *)

(** ** The error monad *)

Lemma bind_Ok {A B} (m : result A) (f : A → result B) (b : B) :
  m ≫= f = Ok b → ∃ a, m = Ok a ∧ f a = Ok b.
Proof. destruct m as [a|e]; simpl; [eauto | discriminate]. Qed.

(** Invert [m ≫= f = Ok b], repeatedly through a chain of binds. *)
Ltac inv_bind H :=
  let a := fresh "a" in
  let Ha := fresh "Ha" in
  apply bind_Ok in H as (a & Ha & H);
  try (repeat inv_bind Ha; injection Ha as <-).

Lemma require_columns_Ok labels df :
  require_columns labels df = Ok () ↔ Forall (λ c, c ∈ columns df) labels.
Proof.
  unfold require_columns. split.
  - destruct (filter _ labels) as [|c l] eqn:E; [intros _ | discriminate].
    apply Forall_forall. intros c Hc.
    destruct (decide (c ∈ columns df)) as [|Hn]; [done|].
    by destruct (filter_nil_not_elem_of _ _ c E Hn).
  - intros H. destruct (filter _ labels) as [|c l] eqn:E; [done|].
    assert (Hc : c ∈ filter (λ c, c ∉ columns df) labels)
      by (rewrite E; left).
    apply list_elem_of_filter in Hc as [Hn Hc].
    rewrite Forall_forall in H. destruct (Hn (H c Hc)).
Qed.

Lemma require_columns_missing labels df c :
  c ∈ labels → c ∉ columns df →
  ∃ c', require_columns labels df = Raise (KeyError c').
Proof.
  intros Hc Hn. unfold require_columns.
  destruct (filter _ labels) as [|c' l] eqn:E; [|eauto].
  by destruct (filter_nil_not_elem_of _ _ c E Hn).
Qed.

(** ** Reading cells of updated rows *)

Lemma get_insert (r : row) c c' v :
  get (<[c := v]> r) c' = if decide (c = c') then v else get r c'.
Proof.
  unfold get. rewrite lookup_insert. by repeat case_decide.
Qed.

Lemma get_drop_row labels (r : row) c :
  get (drop_row labels r) c = if decide (c ∈ labels) then NaN else get r c.
Proof.
  unfold drop_row, get. induction labels as [|l labels IH]; cbn [foldr].
  - by rewrite decide_False by set_solver.
  - rewrite lookup_delete. destruct (decide (l = c)) as [->|Hne].
    + by rewrite decide_True by left.
    + rewrite IH. repeat case_decide; set_solver.
Qed.

Lemma get_to_numeric_row parse labels (r : row) c :
  get (to_numeric_row parse labels r) c
  = if decide (c ∈ labels) then to_numeric parse (get r c) else get r c.
Proof.
  unfold to_numeric_row. induction labels as [|l labels IH]; cbn [foldr].
  - by rewrite decide_False by set_solver.
  - rewrite get_insert. destruct (decide (l = c)) as [->|Hne].
    + by rewrite decide_True by left.
    + rewrite IH. repeat case_decide; set_solver.
Qed.

(** ** The loader, row by row *)

Lemma keep_first_elem_of {A} `{EqDecision A} (l : list A) r :
  r ∈ keep_first l ↔ r ∈ l.
Proof.
  induction l as [|x l IH]; simpl; [done|].
  rewrite !elem_of_cons, list_elem_of_filter, IH.
  destruct (decide (r = x)); naive_solver.
Qed.

Lemma keep_first_NoDup {A} `{EqDecision A} (l : list A) :
  NoDup (keep_first l).
Proof.
  induction l as [|x l IH]; simpl; [constructor|].
  constructor.
  - rewrite list_elem_of_filter. naive_solver.
  - by apply NoDup_filter.
Qed.

(** The frame the loader returns is the raw frame with the rows of empty
    [serving_size] removed, each row prepared, the duplicates removed and
    each remaining row coerced and extended. *)
Lemma load_and_clean_data_rows parse csv df cols :
  load_and_clean_data parse csv = Ok (df, cols) →
  cols = nutrition_columns ∧
  rows df = after_dedup parse <$> keep_first (before_dedup <$>
              filter (λ r, Forall (λ c, get r c ≠ NaN) ["serving_size"])
                     (rows csv)).
Proof.
  unfold load_and_clean_data, dropna, drop, fillna_column, apply_to_numeric,
    assign_product.
  intros H. repeat inv_bind H. injection H as <- <-. split; [done|].
  simpl. rewrite <- !list_fmap_compose. reflexivity.
Qed.

(** Decide equalities and memberships of concrete column labels that a
    rewrite left in the goal. *)
Ltac by_computation := apply (bool_decide_unpack _); vm_compute; exact I.

Ltac label_dec :=
  repeat match goal with
  | |- context [decide (?a = ?b)] =>
      first [ rewrite (decide_True (P := a = b)) by reflexivity
            | rewrite (decide_False (P := a = b)) by discriminate ]
  | |- context [decide (?a ∈ ?l)] =>
      first [ rewrite (decide_True (P := a ∈ l)) by by_computation
            | rewrite (decide_False (P := a ∈ l)) by by_computation ]
  end.

Ltac read_cells :=
  repeat (rewrite ?get_insert, ?get_to_numeric_row, ?get_drop_row; label_dec).

Lemma loaded_row_origin parse csv df cols r :
  load_and_clean_data parse csv = Ok (df, cols) → r ∈ rows df →
  ∃ r0, r0 ∈ rows csv ∧ get r0 "serving_size" ≠ NaN
        ∧ r = after_dedup parse (before_dedup r0).
Proof.
  intros Hload Hr. apply load_and_clean_data_rows in Hload as [_ Hrows].
  rewrite Hrows in Hr.
  apply list_elem_of_fmap in Hr as (r1 & -> & Hr).
  apply keep_first_elem_of, list_elem_of_fmap in Hr as (r0 & -> & Hr).
  apply list_elem_of_filter in Hr as [Hss Hr].
  exists r0. split_and!; [done| |done]. by inversion Hss.
Qed.

(** ** Failure on an absent column *)

(** C10: the loader raises [KeyError], and returns no table, whenever a
    label of its drop list is not a column of the input. *)
Theorem load_and_clean_data_absent_drop_column parse csv c :
  c ∈ columns_to_drop → c ∉ columns csv →
  ∃ label, load_and_clean_data parse csv = Raise (KeyError label).
Proof.
  intros Hc Hn. unfold load_and_clean_data, dropna at 1.
  destruct (require_columns ["serving_size"] csv) as [[]|e] eqn:Hss.
  - cbn [mbind result_bind]. unfold drop at 1.
    destruct (require_columns_missing columns_to_drop
                {| columns := columns csv;
                   rows := filter (λ r, Forall (λ c, get r c ≠ NaN)
                                          ["serving_size"]) (rows csv) |} c)
      as [c' ->]; [done..|]. by exists c'.
  - unfold require_columns in Hss.
    destruct (filter _ ["serving_size"]) as [|c' ?]; [done|].
    injection Hss as <-. by exists c'.
Qed.

Lemma load_and_clean_data_absent_drop_column_witness :
  ∃ label,
    load_and_clean_data decimal_literal
      {| columns := ["serving_size"; "serving_size_unit"]; rows := [] |}
    = Raise (KeyError label).
Proof.
  apply (load_and_clean_data_absent_drop_column decimal_literal _ "potassium").
  - by_computation.
  - by_computation.
Defined.

(** The drop list has sixteen labels, and no query reads any of them. *)
Example columns_to_drop_unused :
  length columns_to_drop = 16%nat
  ∧ Forall (λ c, (c ∉ item_columns) ∧ (c ∉ ["restaurant"; "food_category"]))
           columns_to_drop.
Proof. split; [reflexivity | by_computation]. Qed.

(** ** Serving size and unit *)

(** C9: every row of the loaded table has a serving size (it is the
    serving size of a raw row that had one) and a serving-size unit (the
    raw one, or the text [Unit] where the raw cell was empty). *)
Theorem loaded_serving_size_nonnull parse csv df cols r :
  load_and_clean_data parse csv = Ok (df, cols) → r ∈ rows df →
  get r "serving_size" ≠ NaN ∧ get r "serving_size_unit" ≠ NaN ∧
  ∃ r0, r0 ∈ rows csv
        ∧ get r "serving_size" = get r0 "serving_size"
        ∧ get r "serving_size_unit"
          = match get r0 "serving_size_unit" with
            | NaN => Str "Unit"
            | u => u
            end.
Proof.
  intros Hload Hr.
  destruct (loaded_row_origin _ _ _ _ _ Hload Hr) as (r0 & Hr0 & Hss & ->).
  assert (Hsize : get (after_dedup parse (before_dedup r0)) "serving_size"
                  = get r0 "serving_size").
  { unfold after_dedup, before_dedup. by read_cells. }
  assert (Hunit : get (after_dedup parse (before_dedup r0)) "serving_size_unit"
                  = fillna_cell (Str "Unit") (get r0 "serving_size_unit")).
  { unfold after_dedup, before_dedup. by read_cells. }
  rewrite Hsize, Hunit. split_and!; [done| |].
  - by destruct (get r0 "serving_size_unit").
  - exists r0. split_and!; [done..|]. by destruct (get r0 "serving_size_unit").
Qed.

Lemma loaded_menu_eq :
  load_and_clean_data decimal_literal csv_menu
  = Ok (loaded_menu, nutrition_columns).
Proof. vm_compute. reflexivity. Qed.

Lemma loaded_serving_size_nonnull_witness :
  get menu_salad "serving_size" ≠ NaN ∧
  get menu_salad "serving_size_unit" ≠ NaN ∧
  ∃ r0, r0 ∈ rows csv_menu
        ∧ get menu_salad "serving_size" = get r0 "serving_size"
        ∧ get menu_salad "serving_size_unit"
          = match get r0 "serving_size_unit" with
            | NaN => Str "Unit"
            | u => u
            end.
Proof.
  apply (loaded_serving_size_nonnull decimal_literal csv_menu loaded_menu
           nutrition_columns menu_salad).
  - exact loaded_menu_eq.
  - by_computation.
Defined.

(** ** Macronutrient calories *)




(** On the example: of four raw rows, one without a serving size, three
    are loaded. *)
Example loaded_menu_rows :
  rows loaded_menu = [menu_burger; menu_salad; menu_fries].
Proof. by_computation. Qed.

(** On the example: the salad has 5 g of fat and an unreadable
    carbohydrate cell. *)
Example menu_salad_calories :
  get menu_salad "fat_calories" = num 45 ∧
  get menu_salad "carb_calories" = NaN.
Proof. split; by_computation. Qed.

(** ** Looking an item up *)

Lemma filter_none {A} (P : A → Prop) `{∀ x, Decision (P x)} (l : list A) :
  (∀ x, x ∈ l → ¬ P x) → filter P l = [].
Proof.
  intros Hl. induction l as [|x l IH]; [done|].
  rewrite filter_cons_False by (apply Hl; left).
  apply IH. intros y Hy. apply Hl. by right.
Qed.

Lemma require_columns_one df c :
  c ∈ columns df → require_columns [c] df = Ok ().
Proof. intros Hc. apply require_columns_Ok. by repeat constructor. Qed.

Lemma require_columns_subseteq labels df :
  labels ⊆ columns df → require_columns labels df = Ok ().
Proof. intros H. apply require_columns_Ok, Forall_forall. exact H. Qed.

Lemma row_getitem_Ok df r c :
  c ∈ columns df → row_getitem df r c = Ok (get r c).
Proof. intros Hc. unfold row_getitem. by rewrite require_columns_one. Qed.

Lemma display_item_info_first df name r rest :
  item_columns ⊆ columns df → name ≠ "" →
  filter (λ r, get r "item_name" = Str name) (rows df) = r :: rest →
  display_item_info df (Some name) = Ok (Some (item_record name r)).
Proof.
  intros Hcols Hname Hfilter. unfold display_item_info, select_eq.
  replace (selected (Some name)) with (Some name) by (by destruct name).
  rewrite require_columns_one by (apply Hcols; by_computation).
  simpl. unfold iloc0. simpl. rewrite Hfilter. simpl.
  rewrite !row_getitem_Ok by (apply Hcols; by_computation). simpl.
  rewrite require_columns_subseteq; [simpl|].
  - unfold item_record. repeat f_equal. by destruct (get r "item_description").
  - intros c Hc. apply Hcols. unfold item_columns. set_solver.
Qed.

Lemma display_item_info_absent df name :
  item_columns ⊆ columns df → name ≠ "" →
  (∀ r, r ∈ rows df → get r "item_name" ≠ Str name) →
  display_item_info df (Some name) = Raise IndexError.
Proof.
  intros Hcols Hname Habsent. unfold display_item_info, select_eq.
  replace (selected (Some name)) with (Some name) by (by destruct name).
  rewrite require_columns_one by (apply Hcols; by_computation).
  simpl. unfold iloc0. simpl. by rewrite (filter_none _ (rows df)).
Qed.

(** C1 (as the code has it): for a non-empty name, the callback returns
    the record of the first row of that name when there is one, and raises
    [IndexError] when there is none; without a selection it returns
    [None]. *)
Theorem display_item_info_lookup df name :
  item_columns ⊆ columns df → name ≠ "" →
  (∀ before r after,
      rows df = (before ++ r :: after)%list →
      get r "item_name" = Str name →
      (∀ r', r' ∈ before → get r' "item_name" ≠ Str name) →
      display_item_info df (Some name) = Ok (Some (item_record name r)))
  ∧ ((∀ r, r ∈ rows df → get r "item_name" ≠ Str name) →
      display_item_info df (Some name) = Raise IndexError)
  ∧ display_item_info df None = Ok None
  ∧ display_item_info df (Some "") = Ok None.
Proof.
  intros Hcols Hname. split_and!; [| |done..].
  - intros before r after Hrows Hr Hbefore.
    apply (display_item_info_first _ _ _
             (filter (λ r, get r "item_name" = Str name) after)); [done..|].
    rewrite Hrows, filter_app, filter_cons_True by done.
    by rewrite (filter_none _ before).
  - by apply display_item_info_absent.
Qed.

Lemma loaded_menu_item_columns : item_columns ⊆ columns loaded_menu.
Proof. by_computation. Qed.

Lemma display_item_info_lookup_witness :
  (∀ before r after,
      rows loaded_menu = (before ++ r :: after)%list →
      get r "item_name" = Str "Salad" →
      (∀ r', r' ∈ before → get r' "item_name" ≠ Str "Salad") →
      display_item_info loaded_menu (Some "Salad")
      = Ok (Some (item_record "Salad" r)))
  ∧ ((∀ r, r ∈ rows loaded_menu → get r "item_name" ≠ Str "Salad") →
      display_item_info loaded_menu (Some "Salad") = Raise IndexError)
  ∧ display_item_info loaded_menu None = Ok None
  ∧ display_item_info loaded_menu (Some "") = Ok None.
Proof.
  apply (display_item_info_lookup loaded_menu "Salad").
  - exact loaded_menu_item_columns.
  - discriminate.
Defined.

(** On the example table: [Salad] is found, and its record is that of its
    row; [Pizza] is on no row, and looking it up raises. *)
Example display_item_info_salad :
  display_item_info loaded_menu (Some "Salad")
  = Ok (Some (item_record "Salad" menu_salad)).
Proof.
  apply (display_item_info_first _ _ _ []);
    [exact loaded_menu_item_columns | discriminate | by_computation].
Qed.

(** C1, counterexample: a name that is on no row of the table; the
    callback returns no result at all, it raises [IndexError]. *)
Lemma display_item_info_not_found_raises :
  (∀ r, r ∈ rows loaded_menu → get r "item_name" ≠ Str "Pizza")
  ∧ display_item_info loaded_menu (Some "Pizza") = Raise IndexError
  ∧ ¬ ∃ sentinel, display_item_info loaded_menu (Some "Pizza") = Ok sentinel.
Proof.
  assert (Habsent : ∀ r, r ∈ rows loaded_menu →
                         get r "item_name" ≠ Str "Pizza").
  { apply Forall_forall. by_computation. }
  assert (Hraise : display_item_info loaded_menu (Some "Pizza")
                   = Raise IndexError).
  { apply display_item_info_absent;
      [exact loaded_menu_item_columns | discriminate | exact Habsent]. }
  split_and!; [done..|]. intros [v Hv]. by rewrite Hraise in Hv.
Qed.

(** ** Comparing items *)







(** ** The order on cells *)






(** ** Insertion sort *)

Section insertion.
Context {A : Type} (le : A → A → bool).
Hypothesis le_total : ∀ x y, le x y ∨ le y x.
Hypothesis le_trans : ∀ x y z, le x y → le y z → le x z.




End insertion.



(** ** Ranking the rows of a nutrient *)


Lemma filter_iff {A} (P Q : A → Prop) `{∀ x, Decision (P x)}
    `{∀ x, Decision (Q x)} (l : list A) :
  (∀ x, P x ↔ Q x) → filter P l = filter Q l.
Proof.
  intros HPQ. induction l as [|x l IH]; [done|].
  destruct (decide (P x)) as [HP|HP].
  - rewrite !filter_cons_True by naive_solver. by rewrite IH.
  - rewrite !filter_cons_False by naive_solver. done.
Qed.

Lemma filter_all {A} (P : A → Prop) `{∀ x, Decision (P x)} (l : list A) :
  (∀ x, x ∈ l → P x) → filter P l = l.
Proof.
  intros Hl. induction l as [|x l IH]; [done|].
  rewrite filter_cons_True by (apply Hl; left).
  f_equal. apply IH. intros y Hy. apply Hl. by right.
Qed.



Lemma known_rows_known df nutrient r :
  r ∈ known_rows df nutrient → get r nutrient ≠ NaN.
Proof. unfold known_rows. rewrite list_elem_of_filter. by intros []. Qed.

(** With a nutrient and a positive [n], the callback ranks the known rows
    and keeps the first [n]. *)
Lemma update_top_n_output_rows kind df nutrient n order :
  ["item_name"; "restaurant"; nutrient] ⊆ columns df →
  nutrient ≠ "" → (0 < n)%Z →
  update_top_n_output kind df (Some nutrient) (Some n) order
  = Ok (Some {| columns := ["item_name"; "restaurant"; nutrient];
                rows := take (Z.to_nat n)
                          (kind (row_leb nutrient (String.eqb order "asc"))
                                (known_rows df nutrient)) |}).
Proof.
  intros Hcols Hname Hn. unfold update_top_n_output.
  replace (selected (Some nutrient)) with (Some nutrient)
    by (by destruct nutrient).
  replace (entered (Some n)) with (Some n) by (by destruct n).
  unfold getitem_columns. rewrite require_columns_subseteq by done.
  simpl. unfold dropna. rewrite require_columns_one by (simpl; set_solver).
  simpl. unfold sort_values. rewrite require_columns_one by (simpl; set_solver).
  simpl. unfold head. simpl.
  replace (0 <=? n)%Z with true by lia.
  do 3 f_equal.
  assert (Hknown : filter (λ r, Forall (λ c, get r c ≠ NaN) [nutrient])
                     (project ["item_name"; "restaurant"; nutrient]
                        <$> rows df)
                   = known_rows df nutrient).
  { apply filter_iff. intros r. split.
    - by inversion 1.
    - by repeat constructor. }
  rewrite Hknown.
  rewrite (filter_all (λ r, get r nutrient ≠ NaN))
    by apply known_rows_known.
  rewrite (filter_none (λ r, get r nutrient = NaN)).
  - by rewrite app_nil_r.
  - intros r Hr Hnan. by apply (known_rows_known _ _ _ Hr).
Qed.



(** With a stable algorithm the callback is [topN] of the specification. *)
Lemma update_top_n_output_stable df nutrient n order :
  ["item_name"; "restaurant"; nutrient] ⊆ columns df →
  nutrient ≠ "" → (0 < n)%Z →
  update_top_n_output stable_sort df (Some nutrient) (Some n) order
  = Ok (Some {| columns := ["item_name"; "restaurant"; nutrient];
                rows := topN df nutrient (Z.to_nat n)
                             (String.eqb order "asc") |}).
Proof. intros. by apply update_top_n_output_rows. Qed.


(** ** All known rows *)



(** ** Duplicate rows *)

(** The rows are pairwise distinct when the duplicates are removed, that
    is before the nutrition columns are coerced. *)
Lemma load_and_clean_data_distinct_before_coercion parse csv df cols :
  load_and_clean_data parse csv = Ok (df, cols) →
  ∃ prepared, NoDup prepared ∧ rows df = after_dedup parse <$> prepared.
Proof.
  intros Hload. apply load_and_clean_data_rows in Hload as [_ Hrows].
  eexists. split; [|exact Hrows]. apply keep_first_NoDup.
Qed.

(** C6, on a failing input: two raw rows that differ only in the text of a
    calorie cell that is not a number.  They are distinct when the
    duplicates are removed; the coercion then makes both cells unknown, and
    the loaded table has the same row twice. *)
Theorem load_and_clean_data_duplicate_after_coercion :
  raw_soda "<5" ≠ raw_soda "trace" ∧
  ∃ df r,
    load_and_clean_data decimal_literal csv_soda = Ok (df, nutrition_columns)
    ∧ rows df = [r; r]
    ∧ ¬ NoDup (rows df).
Proof.
  split; [by_computation|].
  exists (match load_and_clean_data decimal_literal csv_soda with
          | Ok (df, _) => df
          | Raise _ => {| columns := []; rows := [] |}
          end),
         (after_dedup decimal_literal (before_dedup (raw_soda "<5"))).
  split; [vm_compute; reflexivity|].
  assert (Hrows : rows (match load_and_clean_data decimal_literal csv_soda with
                        | Ok (df, _) => df
                        | Raise _ => {| columns := []; rows := [] |}
                        end)
                  = [after_dedup decimal_literal (before_dedup (raw_soda "<5"));
                     after_dedup decimal_literal (before_dedup (raw_soda "<5"))])
    by by_computation.
  split; [exact Hrows|]. rewrite Hrows.
  intros Hnodup. apply NoDup_cons in Hnodup as [Hnotin _].
  apply Hnotin. left.
Qed.

(** ** Numeric columns of the loaded table *)


(** ** The columns of the loaded table *)

Lemma setitem_columns c f df : columns df ⊆ columns (setitem c f df).
Proof. unfold setitem. simpl. case_decide; [done|]. set_solver. Qed.

Lemma setitem_column c f df : c ∈ columns (setitem c f df).
Proof. unfold setitem. simpl. case_decide; [done|]. set_solver. Qed.

(** The loaded table has the nutrition columns, the serving size and unit,
    the three derived columns, and every raw column that is not dropped. *)
Lemma load_and_clean_data_columns parse csv df cols :
  load_and_clean_data parse csv = Ok (df, cols) →
  nutrition_columns ⊆ columns df
  ∧ [ "serving_size"; "serving_size_unit"; "carb_calories"; "fat_calories";
      "protein_calories" ] ⊆ columns df
  ∧ ∀ c, c ∈ columns csv → c ∉ columns_to_drop → c ∈ columns df.
Proof.
  unfold load_and_clean_data, dropna, drop, fillna_column, apply_to_numeric,
    assign_product.
  intros H. repeat inv_bind H. injection H as <- <-.
  destruct a0, a1, a2, a3.
  apply require_columns_Ok in Ha0, Ha2, Ha3.
  set (dropped := {| columns := filter (λ c, c ∉ columns_to_drop) (columns csv);
                     rows := drop_row columns_to_drop
                               <$> filter (λ r, Forall (λ c, get r c ≠ NaN)
                                                  ["serving_size"])
                                          (rows csv) |}) in *.
  set (filled := setitem "serving_size_unit"
                   (λ r, fillna_cell (Str "Unit") (get r "serving_size_unit"))
                   dropped) in *.
  match goal with
  | |- context [setitem "protein_calories" ?f3
                  (setitem "fat_calories" ?f2
                     (setitem "carb_calories" ?f1 ?coerced))] =>
      set (with_carb := setitem "carb_calories" f1 coerced);
      set (with_fat := setitem "fat_calories" f2 with_carb);
      set (final := setitem "protein_calories" f3 with_fat);
      assert (Hgrow : columns filled ⊆ columns final)
        by (etrans; [apply (setitem_columns "carb_calories" f1 coerced)|];
            etrans; [apply (setitem_columns "fat_calories" f2 with_carb)|];
            apply (setitem_columns "protein_calories" f3 with_fat))
  end.
  assert (Hkept : ∀ c, c ∈ columns csv → c ∉ columns_to_drop →
                       c ∈ columns final).
  { intros c Hc Hn. apply Hgrow, setitem_columns. simpl.
    by apply list_elem_of_filter. }
  split_and!.
  - intros c Hc. apply Hgrow. rewrite Forall_forall in Ha3. by apply Ha3.
  - intros c Hc.
    repeat (apply elem_of_cons in Hc as [->|Hc]);
      [..|by apply elem_of_nil in Hc].
    + apply Hkept; [|by_computation].
      rewrite Forall_forall in Ha0. apply Ha0. left.
    + apply Hgrow, setitem_column.
    + apply (setitem_columns "protein_calories"),
        (setitem_columns "fat_calories"), setitem_column.
    + apply (setitem_columns "protein_calories"), setitem_column.
    + apply setitem_column.
  - exact Hkept.
Qed.


(** ** Means of groups *)













(** On the example table: the only salad has no calorie value, so the
    average of [Salads] is unknown; restaurant [Alpha] sells the burger
    (500 kCal) and that salad, and its average is 500, not 250. *)
Example category_average_of_no_value :
  ∃ avg,
    update_category_comparison_output loaded_menu (Some "calories_(kCal)")
                                      ["Salads"; "Burgers"]
    = Ok (Some avg)
    ∧ (λ a, (get a "food_category", get a "calories_(kCal)")) <$> rows avg
      = [(Str "Burgers", num 500); (Str "Salads", NaN)].
Proof. eexists. split; [vm_compute; reflexivity | by_computation]. Qed.

Example restaurant_average_skips_unknown :
  ∃ melted,
    update_restaurant_averages_output loaded_menu ["Alpha"]
                                      ["calories_(kCal)"]
    = Ok (Some melted)
    ∧ (λ m, (get m "restaurant", get m "Average Amount")) <$> rows melted
      = [(Str "Alpha", num 500)].
Proof. eexists. split; [vm_compute; reflexivity | by_computation]. Qed.

(** ** Rounding *)





(** ** Minimum, maximum, median, variance *)










(** ** The statistical summary *)






(** On the example: [A] has sodium 100, 200 and 400, so mean 233.33,
    median 200, standard deviation 152.75 (the root of 23333.33...),
    minimum 100 and maximum 400; [B] has no known value. *)
Example statistical_summary_of_sodium :
  ∃ table,
    update_statistical_summary_output loaded_sodium (Some "sodium_(mg)")
                                      (Some "restaurant")
    = Ok (Some table)
    ∧ (λ a, (get a "restaurant",
             [get a "mean"; get a "median"; get a "std"; get a "min";
              get a "max"])) <$> rows table
      = [ (Str "A", [Num (Q2Qc (23333 # 100)); num 200;
                     Num (Q2Qc (15275 # 100)); num 100; num 400]);
          (Str "B", [NaN; NaN; NaN; NaN; NaN]) ].
Proof. eexists. split; [vm_compute; reflexivity | by_computation]. Qed.
